(** * Durable data-pipeline workflows: a shallow embedding

    This development embeds the three workflow classes of the data-pipeline
    demo ([DataPipelineWorkflowScenarios], [DataPipelineWorkflowHappyPath]
    and [DataPipelineWorkflowNonRecoverableFailure]) as computations in a
    small state-and-exception monad.  The workflow object's fields
    ([_progress], [load_complete_signal], [load_complete_update]) form the
    state, together with the log of the commands the workflow issues to the
    host runtime (activity invocations, timers, search-attribute upserts,
    progress updates).  The outcomes of the activities, which run outside
    the workflow, and the signal/update messages delivered by clients are
    given by an environment [Env]. *)

From Stdlib Require Import String List ZArith Bool Lia Sorted.
Import ListNotations.
Open Scope string_scope.
Open Scope Z_scope.

(** ** Data objects *)

(** [dataobjects.DataPipelineParams]: the fields the workflows read or write. *)
Record DataPipelineParams := mkParams {
  input_filename : string;
  validation : string
}.

(** Python's [input.validation = v]. *)
Definition set_validation (p : DataPipelineParams) (v : string) : DataPipelineParams :=
  mkParams (input_filename p) v.

(** The activities imported from [activities]. *)
Inductive activity :=
| get_available_task_queue | validate | extract | transform | load | poll.

(** Arguments passed to an activity. *)
Inductive arg :=
| ArgParams (p : DataPipelineParams)
| ArgStr (s : string).

(** Exceptions raised by workflow code.
    [ApplicationError msg cause] is [raise ApplicationError(msg) from
    CustomException(cause)] ([cause = None] when there is no [from]);
    [ActivityError a] is what [execute_activity] raises when activity [a]
    finally fails; [Exception msg] is a plain Python [Exception(msg)]. *)
Inductive exn :=
| ApplicationError (msg : string) (cause : option string)
| ActivityError (a : activity)
| Exception (msg : string).

(** Options of an [execute_activity] call, in seconds:
    [start_to_close_timeout], [heartbeat_timeout] and the retry policy
    [(initial_interval, backoff_coefficient)]. *)
Record ActivityOptions := mkOpts {
  start_to_close : Z;
  heartbeat : option Z;
  retry_policy : option (Z * Z)
}.

(** Commands issued by the workflow, in order. *)
Inductive event :=
| Invoke (a : activity) (args : list arg) (task_queue : option string)
         (opts : ActivityOptions)
| SetProgress (n : Z)
| Sleep (secs : Z)
| Upsert (key : string) (vals : list string)
| WaitCondition (timeout : Z).

(** The workflow object's fields, plus the command log. *)
Record WState := mkState {
  _progress : Z;
  load_complete_signal : bool;
  load_complete_update : bool;
  log : list event
}.

(** [__init__]. *)
Definition init_state : WState := mkState 0 false false [].

(** ** The workflow monad *)

Inductive res (A : Type) :=
| Ok (a : A)
| Raise (e : exn).
Arguments Ok {A} a.
Arguments Raise {A} e.

Definition M (A : Type) := WState -> res A * WState.

Definition ret {A} (a : A) : M A := fun s => (Ok a, s).

Definition bind {A B} (m : M A) (f : A -> M B) : M B :=
  fun s => match m s with
           | (Ok a, s') => f a s'
           | (Raise e, s') => (Raise e, s')
           end.

Definition raise {A} (e : exn) : M A := fun s => (Raise e, s).

Notation "x <- m ;; k" := (bind m (fun x => k))
  (at level 61, m at next level, right associativity).
Notation "m ;;; k" := (bind m (fun _ => k))
  (at level 61, right associativity).

Definition emit (e : event) : M unit :=
  fun s => (Ok tt, mkState (_progress s) (load_complete_signal s)
                           (load_complete_update s) (log s ++ [e])).

(** [self._progress = n]. *)
Definition set_progress (n : Z) : M unit :=
  fun s => (Ok tt, mkState n (load_complete_signal s)
                           (load_complete_update s) (log s ++ [SetProgress n])).

(** [await asyncio.sleep(secs)]. *)
Definition sleep (secs : Z) : M unit := emit (Sleep secs).

(** [workflow.upsert_search_attributes({key: vals})]. *)
Definition upsert_search_attributes (key : string) (vals : list string) : M unit :=
  emit (Upsert key vals).

(** ** Handlers of [DataPipelineWorkflowScenarios] *)

(** [@workflow.signal load_complete_signal(self, complete)]. *)
Definition load_complete_signal_handler (complete : string) : M unit :=
  fun s => (Ok tt, mkState (_progress s) true (load_complete_update s) (log s)).

(** [@workflow.update load_complete_update(self, complete)]. *)
Definition load_complete_update_handler (complete : string) : M string :=
  fun s => (Ok "Workflow update successful",
            mkState (_progress s) (load_complete_signal s) true (log s)).

(** [@workflow.query progress(self)]. *)
Definition progress (s : WState) : Z := _progress s.

(** ** The environment *)

(** Messages delivered by clients to a running instance. *)
Inductive message :=
| SignalMsg (payload : string)
| UpdateMsg (payload : string).

(** The outcomes of everything outside the workflow code.  An activity
    outcome is the final one, after the server's retries of the activity;
    [None] means the activity finally failed.  [env_messages] lists the
    messages delivered to the instance with their delivery time, in seconds
    relative to the start of the human-in-the-loop wait (times up to 0 are
    deliveries made before the wait begins). *)
Record Env := mkEnv {
  env_discover : option string;
  env_validate : DataPipelineParams -> option string -> option bool;
  env_activity : activity -> list arg -> option string -> option string;
  env_messages : list (Z * message)
}.

Section Workflow.
Variable env : Env.

(** [workflow.execute_activity(get_available_task_queue, ...)]. *)
Definition exec_discover (opts : ActivityOptions) : M string :=
  emit (Invoke get_available_task_queue [] None opts) ;;;
  match env_discover env with
  | Some q => ret q
  | None => raise (ActivityError get_available_task_queue)
  end.

(** [workflow.execute_activity(validate, input, ...)]. *)
Definition exec_validate (input : DataPipelineParams) (tq : option string)
    (opts : ActivityOptions) : M bool :=
  emit (Invoke validate [ArgParams input] tq opts) ;;;
  match env_validate env input tq with
  | Some b => ret b
  | None => raise (ActivityError validate)
  end.

(** [workflow.execute_activity(a, args, ...)] for the other activities. *)
Definition execute_activity (a : activity) (args : list arg) (tq : option string)
    (opts : ActivityOptions) : M string :=
  emit (Invoke a args tq opts) ;;;
  match env_activity env a args tq with
  | Some out => ret out
  | None => raise (ActivityError a)
  end.

Definition deliver (m : message) : M unit :=
  match m with
  | SignalMsg p => load_complete_signal_handler p
  | UpdateMsg p => load_complete_update_handler p ;;; ret tt
  end.

Definition deliver_all (ms : list (Z * message)) (s : WState) : WState :=
  fold_left (fun s tm => snd (deliver (snd tm) s)) ms s.

(** [await workflow.wait_condition(cond, timeout=t)]: the messages delivered
    before the timeout are handled, then the condition is read.  [true]:
    the condition held; [false]: [asyncio.TimeoutError]. *)
Definition wait_condition (cond : WState -> bool) (timeout : Z) : M bool :=
  emit (WaitCondition timeout) ;;;
  fun s =>
    let s' := deliver_all (filter (fun tm => fst tm <? timeout) (env_messages env)) s in
    (Ok (cond s'), s').

End Workflow.

(** Activity option sets used by the workflows. *)
Definition opts_discover := mkOpts 10 None None.
Definition opts_stage := mkOpts 300 (Some 20) None.
Definition opts_poll := mkOpts 3000 (Some 20) (Some (2, 1)).

(** ** [DataPipelineWorkflowScenarios] *)

Module Scenarios.

Definition BUG := "DataPipelineRecoverableFailure".
Definition FAILURE := "DataPipelineNonRecoverableFailure".
Definition SIGNAL := "DataPipelineHumanInLoopSignal".
Definition UPDATE := "DataPipelineHumanInLoopUpdate".
Definition VISIBILITY := "DataPipelineAdvancedVisibility".
Definition IDEMPOTENCY := "DataPipelineIdempotency".

Definition when (b : bool) (m : M unit) : M unit := if b then m else ret tt.

Definition load_timeout_error :=
  ApplicationError "Load did not complete before timeout" None.

(** [DataPipelineWorkflowScenarios.run]; [workflow_type] is
    [workflow.info().workflow_type]. *)
Definition run (env : Env) (input0 : DataPipelineParams) (workflow_type : string)
    : M string :=
  unique_worker_task_queue <- exec_discover env opts_discover ;;
  set_progress 10 ;;;
  sleep 2 ;;;
  when (String.eqb VISIBILITY workflow_type) (upsert_search_attributes "Step" ["validation"]) ;;;
  let input := if String.eqb FAILURE workflow_type then set_validation input0 "blue" else input0 in
  validation <- exec_validate env input None opts_stage ;;
  if Bool.eqb validation false then
    raise (ApplicationError "Workflow failed due to validation" (Some "Validation Failed"))
  else
  set_progress 20 ;;;
  when (String.eqb VISIBILITY workflow_type) (upsert_search_attributes "Step" ["extract"]) ;;;
  _ <- execute_activity env extract [ArgParams input]
         (Some unique_worker_task_queue) opts_stage ;;
  set_progress 40 ;;;
  when (String.eqb VISIBILITY workflow_type) (upsert_search_attributes "Step" ["transform"]) ;;;
  _ <- execute_activity env transform [ArgParams input]
         (Some unique_worker_task_queue) opts_stage ;;
  (if String.eqb BUG workflow_type then raise (Exception "Workflow bug!") else ret tt) ;;;
  set_progress 60 ;;;
  when (String.eqb VISIBILITY workflow_type) (upsert_search_attributes "Step" ["load"]) ;;;
  _ <- execute_activity env load [ArgParams input]
         (Some unique_worker_task_queue) opts_stage ;;
  when (String.eqb IDEMPOTENCY workflow_type)
    (_ <- execute_activity env load [ArgParams input]
            (Some unique_worker_task_queue) opts_stage ;; ret tt) ;;;
  set_progress 80 ;;;
  (if String.eqb SIGNAL workflow_type then
     ok <- wait_condition env load_complete_signal 60 ;;
     if ok then ret tt else raise load_timeout_error
   else if String.eqb UPDATE workflow_type then
     ok <- wait_condition env load_complete_update 60 ;;
     if ok then ret tt else raise load_timeout_error
   else
     _ <- execute_activity env poll [ArgParams input; ArgStr workflow_type]
            (Some unique_worker_task_queue) opts_poll ;; ret tt) ;;;
  when (String.eqb VISIBILITY workflow_type) (upsert_search_attributes "Step" ["complete"]) ;;;
  set_progress 100 ;;;
  ret ("Successfully processed: " ++ input_filename input ++ "!").

End Scenarios.

(** ** [DataPipelineWorkflowHappyPath] *)

Module HappyPath.

Definition run (env : Env) (input : DataPipelineParams) (workflow_type : string)
    : M string :=
  unique_worker_task_queue <- exec_discover env opts_discover ;;
  set_progress 10 ;;;
  sleep 2 ;;;
  validation <- exec_validate env input None opts_stage ;;
  if Bool.eqb validation false then ret "invalidated" else
  set_progress 20 ;;;
  _ <- execute_activity env extract [ArgParams input]
         (Some unique_worker_task_queue) opts_stage ;;
  set_progress 40 ;;;
  _ <- execute_activity env transform [ArgParams input]
         (Some unique_worker_task_queue) opts_stage ;;
  set_progress 60 ;;;
  _ <- execute_activity env load [ArgParams input]
         (Some unique_worker_task_queue) opts_stage ;;
  set_progress 80 ;;;
  _ <- execute_activity env poll [ArgParams input; ArgStr workflow_type]
         (Some unique_worker_task_queue) opts_poll ;;
  set_progress 100 ;;;
  ret ("Successfully processed: " ++ input_filename input ++ "!").

End HappyPath.

(** ** [DataPipelineWorkflowNonRecoverableFailure] *)

Module NonRecoverableFailure.

Definition run (env : Env) (input0 : DataPipelineParams) : M string :=
  unique_worker_task_queue <- exec_discover env opts_discover ;;
  set_progress 10 ;;;
  sleep 2 ;;;
  let input := set_validation input0 "blue" in
  validation <- exec_validate env input (Some unique_worker_task_queue) opts_stage ;;
  if Bool.eqb validation false then
    raise (ApplicationError "Workflow failed due to validation" (Some "Validation Failed"))
  else
  set_progress 20 ;;;
  _ <- execute_activity env extract [ArgParams input]
         (Some unique_worker_task_queue) opts_stage ;;
  set_progress 40 ;;;
  _ <- execute_activity env transform [ArgParams input]
         (Some unique_worker_task_queue) opts_stage ;;
  set_progress 60 ;;;
  _ <- execute_activity env load [ArgParams input]
         (Some unique_worker_task_queue) opts_stage ;;
  set_progress 80 ;;;
  _ <- execute_activity env poll [ArgParams input]
         (Some unique_worker_task_queue) opts_poll ;;
  set_progress 100 ;;;
  ret ("Successfully processed: " ++ input_filename input ++ "!").

End NonRecoverableFailure.

(** ** Observations *)

(** How the host runtime (temporalio) treats what a run ends with: a
    returned value completes the workflow; an exception that is a
    [FailureError] ([ApplicationError], [ActivityError]) fails the workflow
    execution, which is not retried; any other exception fails only the
    current workflow task, which the runtime retries. *)
Inductive Outcome :=
| Completed (result : string)
| WorkflowFailed (e : exn)
| WorkflowTaskFailed (e : exn).

Definition is_failure_error (e : exn) : bool :=
  match e with
  | ApplicationError _ _ | ActivityError _ => true
  | Exception _ => false
  end.

Definition retryable (e : exn) : bool := negb (is_failure_error e).

Definition host_outcome (r : res string) : Outcome :=
  match r with
  | Ok s => Completed s
  | Raise e => if is_failure_error e then WorkflowFailed e else WorkflowTaskFailed e
  end.

(** Values taken by [_progress], in order, as recorded in a log. *)
Fixpoint progress_values (l : list event) : list Z :=
  match l with
  | [] => []
  | SetProgress n :: l' => n :: progress_values l'
  | _ :: l' => progress_values l'
  end.

Definition activity_eqb (a b : activity) : bool :=
  match a, b with
  | get_available_task_queue, get_available_task_queue | validate, validate
  | extract, extract | transform, transform | load, load | poll, poll => true
  | _, _ => false
  end.

(** The invocations of activity [a] in a log: arguments and task queue. *)
Fixpoint invocations (a : activity) (l : list event) : list (list arg * option string) :=
  match l with
  | [] => []
  | Invoke b args tq _ :: l' =>
      if activity_eqb a b then (args, tq) :: invocations a l' else invocations a l'
  | _ :: l' => invocations a l'
  end.

(** The activities invoked, with their task queues, in order. *)
Fixpoint invoked (l : list event) : list (activity * option string) :=
  match l with
  | [] => []
  | Invoke b _ tq _ :: l' => (b, tq) :: invoked l'
  | _ :: l' => invoked l'
  end.

(** The values upserted under the search attribute [Step], in order. *)
Fixpoint step_tags (l : list event) : list string :=
  match l with
  | [] => []
  | Upsert key vals :: l' =>
      if String.eqb key "Step" then vals ++ step_tags l' else step_tags l'
  | _ :: l' => step_tags l'
  end.

(** The stage markers of a log: every activity invocation and every
    [Step] tag, in order. *)
Inductive marker := MInvoke (a : activity) | MTag (t : string).

Fixpoint markers (l : list event) : list marker :=
  match l with
  | [] => []
  | Invoke b _ _ _ :: l' => MInvoke b :: markers l'
  | Upsert key vals :: l' =>
      if String.eqb key "Step" then map MTag vals ++ markers l' else markers l'
  | _ :: l' => markers l'
  end.

(** The checkpoint values of [_progress]. *)
Definition is_checkpoint (n : Z) : bool :=
  existsb (Z.eqb n) [0; 10; 20; 40; 60; 80; 100].

(** All activities after worker discovery succeed. *)
Definition stages_succeed (env : Env) : Prop :=
  forall a args tq, exists out, env_activity env a args tq = Some out.

(** An environment where everything succeeds, with a given validation
    verdict and given messages. *)
Definition env_ok (verdict : bool) (msgs : list (Z * message)) : Env :=
  mkEnv (Some "worker-1") (fun _ _ => Some verdict) (fun _ _ _ => Some "done") msgs.

Definition sample_input := mkParams "data.csv" "green".

Example scenarios_happy_sample :
  fst (Scenarios.run (env_ok true []) sample_input "Other" init_state)
  = Ok "Successfully processed: data.csv!".
Proof. reflexivity. Qed.

Example scenarios_visibility_tags_sample :
  step_tags (log (snd (Scenarios.run (env_ok true []) sample_input
                        Scenarios.VISIBILITY init_state)))
  = ["validation"; "extract"; "transform"; "load"; "complete"].
Proof. reflexivity. Qed.

Example scenarios_signal_sample :
  fst (Scenarios.run (env_ok true [(30, SignalMsg "done")]) sample_input
         Scenarios.SIGNAL init_state)
  = Ok "Successfully processed: data.csv!".
Proof. reflexivity. Qed.

(** [true] when a list of integers never decreases. *)
Fixpoint nondecreasing (l : list Z) : bool :=
  match l with
  | x :: (y :: _) as l' => (x <=? y) && nondecreasing l'
  | _ => true
  end.

(** ** Further observations *)

Definition params_eqb (p1 p2 : DataPipelineParams) : bool :=
  String.eqb (input_filename p1) (input_filename p2) &&
  String.eqb (validation p1) (validation p2).

Definition arg_eqb (x y : arg) : bool :=
  match x, y with
  | ArgParams p1, ArgParams p2 => params_eqb p1 p2
  | ArgStr s1, ArgStr s2 => String.eqb s1 s2
  | _, _ => false
  end.

Fixpoint args_eqb (xs ys : list arg) : bool :=
  match xs, ys with
  | [], [] => true
  | x :: xs', y :: ys' => arg_eqb x y && args_eqb xs' ys'
  | _, _ => false
  end.

Definition opt_Z_eqb (x y : option Z) : bool :=
  match x, y with
  | Some a, Some b => Z.eqb a b
  | None, None => true
  | _, _ => false
  end.

Definition retry_eqb (x y : option (Z * Z)) : bool :=
  match x, y with
  | Some (a, b), Some (c, d) => Z.eqb a c && Z.eqb b d
  | None, None => true
  | _, _ => false
  end.

Definition opts_eqb (o1 o2 : ActivityOptions) : bool :=
  Z.eqb (start_to_close o1) (start_to_close o2) &&
  opt_Z_eqb (heartbeat o1) (heartbeat o2) &&
  retry_eqb (retry_policy o1) (retry_policy o2).

(** The options each activity is invoked with in the three workflows. *)
Definition expected_opts (a : activity) : ActivityOptions :=
  match a with
  | get_available_task_queue => opts_discover
  | poll => opts_poll
  | _ => opts_stage
  end.

(** Every invocation of a log: activity, arguments and options. *)
Fixpoint invocation_args (l : list event) : list (activity * list arg * ActivityOptions) :=
  match l with
  | [] => []
  | Invoke b args _ o :: l' => (b, args, o) :: invocation_args l'
  | _ :: l' => invocation_args l'
  end.

(** [true] when every activity of a log is invoked with [expected_opts]. *)
Definition options_as_expected (l : list event) : bool :=
  forallb (fun x => let '(a, _, o) := x in opts_eqb o (expected_opts a))
          (invocation_args l).

(** [true] when every invocation after worker discovery takes the request
    [p] as its first argument. *)
Definition stage_inputs_are (p : DataPipelineParams) (l : list event) : bool :=
  forallb (fun x =>
    let '(a, args, _) := x in
    match a with
    | get_available_task_queue => args_eqb args []
    | _ => match args with ArgParams p' :: _ => params_eqb p' p | _ => false end
    end) (invocation_args l).

(** The value of [_progress] a run holds while activity [a] runs. *)
Definition checkpoint_before (a : activity) : Z :=
  match a with
  | get_available_task_queue => 0
  | validate => 10
  | extract => 20
  | transform => 40
  | load => 60
  | poll => 80
  end.

(** Every search-attribute upsert of a log, with its key and values. *)
Fixpoint upserts (l : list event) : list (string * list string) :=
  match l with
  | [] => []
  | Upsert key vals :: l' => (key, vals) :: upserts l'
  | _ :: l' => upserts l'
  end.

Fixpoint count_waits (l : list event) : nat :=
  match l with
  | [] => 0
  | WaitCondition _ :: l' => S (count_waits l')
  | _ :: l' => count_waits l'
  end.

(** The error raised when [validate] rejects the request. *)
Definition validation_error :=
  ApplicationError "Workflow failed due to validation" (Some "Validation Failed").

(** An environment where every activity succeeds except [a]. *)
Definition env_fail (a : activity) : Env :=
  mkEnv (match a with get_available_task_queue => None | _ => Some "worker-1" end)
        (fun _ _ => match a with validate => None | _ => Some true end)
        (fun b _ _ => if activity_eqb a b then None else Some "done") [].

(** ** Proof support *)

Lemma deliver_all_progress ms s : _progress (deliver_all ms s) = _progress s.
Proof.
  unfold deliver_all. revert s.
  induction ms as [|[t m] ms IH]; intros s; simpl; auto.
  destruct m; simpl; rewrite IH; auto.
Qed.

Lemma deliver_all_log ms s : log (deliver_all ms s) = log s.
Proof.
  unfold deliver_all. revert s.
  induction ms as [|[t m] ms IH]; intros s; simpl; auto.
  destruct m; simpl; rewrite IH; auto.
Qed.

Definition is_signal_msg (m : message) : bool :=
  match m with SignalMsg _ => true | UpdateMsg _ => false end.

Definition is_update_msg (m : message) : bool :=
  match m with SignalMsg _ => false | UpdateMsg _ => true end.

(** [true] when a message of the given kind is delivered before [t]. *)
Definition delivered_before (kind : message -> bool) (t : Z) (ms : list (Z * message)) : bool :=
  existsb (fun tm => kind (snd tm)) (filter (fun tm => fst tm <? t) ms).

Lemma deliver_all_signal ms s :
  load_complete_signal (deliver_all ms s)
  = load_complete_signal s || existsb (fun tm => is_signal_msg (snd tm)) ms.
Proof.
  unfold deliver_all. revert s.
  induction ms as [|[t m] ms IH]; intros s; simpl.
  - now rewrite orb_false_r.
  - destruct m; simpl; rewrite IH; simpl;
      destruct (load_complete_signal s), (load_complete_update s); reflexivity.
Qed.

Lemma deliver_all_update ms s :
  load_complete_update (deliver_all ms s)
  = load_complete_update s || existsb (fun tm => is_update_msg (snd tm)) ms.
Proof.
  unfold deliver_all. revert s.
  induction ms as [|[t m] ms IH]; intros s; simpl.
  - now rewrite orb_false_r.
  - destruct m; simpl; rewrite IH; simpl;
      destruct (load_complete_signal s), (load_complete_update s); reflexivity.
Qed.

Arguments deliver_all : simpl never.
Arguments delivered_before : simpl never.
Arguments String.eqb : simpl never.

Ltac unfold_wf :=
  unfold Scenarios.run, HappyPath.run, NonRecoverableFailure.run, exec_discover,
    exec_validate, execute_activity, wait_condition, set_progress, emit, sleep,
    Scenarios.when, upsert_search_attributes, bind, ret, raise.

(** Use what the hypotheses say about the environment. *)
Ltac use_env :=
  match goal with
  | |- context [String.eqb ?x ?x] => rewrite String.eqb_refl
  | H : env_discover ?e = _ |- context [env_discover ?e] => rewrite H
  | H : env_validate ?e ?x ?y = _ |- context [env_validate ?e ?x ?y] => rewrite H
  | H : env_activity ?e ?a ?x ?y = _ |- context [env_activity ?e ?a ?x ?y] => rewrite H
  | H : stages_succeed ?e |- context [env_activity ?e ?a ?x ?y] =>
      let o := fresh "out" in destruct (H a x y) as [o ->]
  | H : String.eqb ?x ?y = _ |- context [String.eqb ?x ?y] => rewrite H
  | H : load_complete_signal ?t = _ |- context [load_complete_signal ?t] => rewrite H
  | H : existsb ?f ?l = _ |- context [existsb ?f ?l] => rewrite H
  | H : load_complete_update ?t = _ |- context [load_complete_update ?t] => rewrite H
  end.

(** Split on what is left unknown. *)
Ltac split_env :=
  match goal with
  | |- context [env_discover ?e] => destruct (env_discover e)
  | |- context [env_validate ?e ?x ?y] => destruct (env_validate e x y) as [[|]|]
  | |- context [env_activity ?e ?a ?x ?y] => destruct (env_activity e a x y)
  | |- context [String.eqb ?x ?y] => destruct (String.eqb x y)
  | |- context [load_complete_signal (deliver_all ?ms ?s)] =>
      destruct (load_complete_signal (deliver_all ms s))
  | |- context [load_complete_update (deliver_all ?ms ?s)] =>
      destruct (load_complete_update (deliver_all ms s))
  | |- context [existsb ?f (filter ?g ?l)] => destruct (existsb f (filter g l))
  end.

Ltac run_wf :=
  unfold_wf;
  repeat (simpl; rewrite ?deliver_all_progress, ?deliver_all_log,
                   ?deliver_all_signal, ?deliver_all_update;
          repeat use_env; try split_env).

(** Evaluate a check on a computed log whose request is abstract. *)
Ltac close_check :=
  unfold stage_inputs_are, options_as_expected, params_eqb, set_validation; simpl;
  rewrite ?String.eqb_refl; reflexivity.

(** ** Claims *)

(** C1 (as stated, refuted): on the happy path with [validate] returning
    false the run ends with [_progress] at 10, not at 20: the checkpoint 20
    is only set after validation passes. *)
Lemma C1_counterexample :
  let r := HappyPath.run (env_ok false []) sample_input
             "DataPipelineWorkflowHappyPath" init_state in
  fst r = Ok "invalidated" /\ progress (snd r) = 10 /\ progress (snd r) <> 20.
Proof. simpl. repeat split; discriminate. Qed.

(** C1 (amended): when [validate] returns false, the happy-path workflow
    returns the soft result ["invalidated"]; the scenarios workflow under
    every workflow type (after forcing [validation] to ["blue"] for
    NonRecoverableFailure) and the NonRecoverableFailure workflow raise
    [ApplicationError("Workflow failed due to validation")] from
    [CustomException("Validation Failed")], which fails the workflow
    execution and is not retried; in every case progress is frozen at 10. *)
Theorem C1_validation_rejected (env : Env) (input : DataPipelineParams) (q : string)
    (Hq : env_discover env = Some q) :
  (forall wt, env_validate env input None = Some false ->
     HappyPath.run env input wt init_state
     = (Ok "invalidated", snd (HappyPath.run env input wt init_state))
     /\ progress (snd (HappyPath.run env input wt init_state)) = 10) /\
  (forall wt,
     env_validate env
       (if String.eqb Scenarios.FAILURE wt then set_validation input "blue" else input)
       None = Some false ->
     let r := Scenarios.run env input wt init_state in
     host_outcome (fst r)
     = WorkflowFailed (ApplicationError "Workflow failed due to validation"
                                        (Some "Validation Failed"))
     /\ progress (snd r) = 10) /\
  (env_validate env (set_validation input "blue") (Some q) = Some false ->
     let r := NonRecoverableFailure.run env input init_state in
     host_outcome (fst r)
     = WorkflowFailed (ApplicationError "Workflow failed due to validation"
                                        (Some "Validation Failed"))
     /\ progress (snd r) = 10).
Proof.
  repeat split; intros.
  all: try (destruct (String.eqb Scenarios.FAILURE wt) eqn:Ef).
  all: run_wf; reflexivity.
Qed.

Lemma C1_validation_rejected_witness :
  env_discover (env_ok false []) = Some "worker-1" /\
  progress (snd (Scenarios.run (env_ok false []) sample_input Scenarios.FAILURE
                  init_state)) = 10.
Proof.
  split; [reflexivity|].
  apply (proj1 (proj2 (C1_validation_rejected (env_ok false []) sample_input
                         "worker-1" eq_refl)) Scenarios.FAILURE eq_refl).
Defined.

(** C2: for every workflow, every environment and every workflow type, the
    values taken by [_progress] (starting from 0) never decrease, are all
    checkpoints in {0,10,20,40,60,80,100}, and the value the progress query
    returns at the end is the last of them. *)
Theorem C2_progress_monotone (env : Env) (input : DataPipelineParams) (wt : string) :
  (let s := snd (Scenarios.run env input wt init_state) in
   nondecreasing (0 :: progress_values (log s)) = true /\
   forallb is_checkpoint (0 :: progress_values (log s)) = true /\
   progress s = last (0 :: progress_values (log s)) 0) /\
  (let s := snd (HappyPath.run env input wt init_state) in
   nondecreasing (0 :: progress_values (log s)) = true /\
   forallb is_checkpoint (0 :: progress_values (log s)) = true /\
   progress s = last (0 :: progress_values (log s)) 0) /\
  (let s := snd (NonRecoverableFailure.run env input init_state) in
   nondecreasing (0 :: progress_values (log s)) = true /\
   forallb is_checkpoint (0 :: progress_values (log s)) = true /\
   progress s = last (0 :: progress_values (log s)) 0).
Proof.
  repeat split; run_wf; reflexivity.
Qed.

(** [true] when a workflow type is none of the names the scenarios
    workflow recognizes. *)
Definition unrecognized (wt : string) : bool :=
  negb (existsb (fun n => String.eqb n wt)
          [Scenarios.BUG; Scenarios.FAILURE; Scenarios.SIGNAL; Scenarios.UPDATE;
           Scenarios.VISIBILITY; Scenarios.IDEMPOTENCY]).

Lemma unrecognized_spec wt :
  unrecognized wt = true ->
  String.eqb Scenarios.BUG wt = false /\ String.eqb Scenarios.FAILURE wt = false /\
  String.eqb Scenarios.SIGNAL wt = false /\ String.eqb Scenarios.UPDATE wt = false /\
  String.eqb Scenarios.VISIBILITY wt = false /\ String.eqb Scenarios.IDEMPOTENCY wt = false.
Proof.
  unfold unrecognized; cbn [existsb].
  destruct (String.eqb Scenarios.BUG wt), (String.eqb Scenarios.FAILURE wt),
    (String.eqb Scenarios.SIGNAL wt), (String.eqb Scenarios.UPDATE wt),
    (String.eqb Scenarios.VISIBILITY wt), (String.eqb Scenarios.IDEMPOTENCY wt);
    simpl; intuition discriminate.
Qed.

(** C3 (as stated, refuted): a workflow type outside the recognized names
    is served by the dynamic scenarios workflow, which runs every stage and
    completes instead of failing at once. *)
Lemma C3_counterexample :
  let r := Scenarios.run (env_ok true []) sample_input "UnknownPipeline" init_state in
  unrecognized "UnknownPipeline" = true /\
  host_outcome (fst r) = Completed "Successfully processed: data.csv!" /\
  invoked (log (snd r))
  = [(get_available_task_queue, None); (validate, None);
     (extract, Some "worker-1"); (transform, Some "worker-1");
     (load, Some "worker-1"); (poll, Some "worker-1")].
Proof. vm_compute. repeat split. Qed.

(** C3 (amended): a workflow type outside the recognized names selects no
    variant delta: the scenarios workflow runs the base pipeline (no
    search-attribute tags, a single load, the poll stage), and when its
    stages succeed it completes with the base success message. *)
Theorem C3_unrecognized_runs_base (env : Env) (input : DataPipelineParams)
    (wt q : string)
    (Hwt : unrecognized wt = true) (Hq : env_discover env = Some q)
    (Hv : env_validate env input None = Some true) (Hs : stages_succeed env) :
  let r := Scenarios.run env input wt init_state in
  host_outcome (fst r)
  = Completed ("Successfully processed: " ++ input_filename input ++ "!") /\
  invoked (log (snd r))
  = [(get_available_task_queue, None); (validate, None);
     (extract, Some q); (transform, Some q); (load, Some q); (poll, Some q)] /\
  step_tags (log (snd r)) = [] /\
  progress (snd r) = 100.
Proof.
  apply unrecognized_spec in Hwt as (H1 & H2 & H3 & H4 & H5 & H6).
  run_wf; repeat split.
Qed.

Lemma C3_unrecognized_runs_base_witness :
  let r := Scenarios.run (env_ok true []) sample_input "UnknownPipeline" init_state in
  progress (snd r) = 100.
Proof.
  refine (proj2 (proj2 (proj2 (C3_unrecognized_runs_base (env_ok true [])
            sample_input "UnknownPipeline" "worker-1" eq_refl eq_refl eq_refl _)))).
  intros a args tq; exists "done"; reflexivity.
Defined.

(** C4: on the happy path, when [validate] accepts the input and every
    later stage succeeds, the run completes with a message containing the
    input filename, and the progress query then returns 100. *)
Theorem C4_happy_success (env : Env) (input : DataPipelineParams) (wt q : string)
    (Hq : env_discover env = Some q) (Hv : env_validate env input None = Some true)
    (Hs : stages_succeed env) :
  let r := HappyPath.run env input wt init_state in
  host_outcome (fst r)
  = Completed ("Successfully processed: " ++ input_filename input ++ "!") /\
  (exists pre post, "Successfully processed: " ++ input_filename input ++ "!"
                    = pre ++ input_filename input ++ post) /\
  progress (snd r) = 100.
Proof.
  run_wf; split; [reflexivity | split; [ | reflexivity]].
  exists "Successfully processed: ", "!"; reflexivity.
Qed.

Lemma C4_happy_success_witness :
  progress (snd (HappyPath.run (env_ok true []) sample_input
                   "DataPipelineWorkflowHappyPath" init_state)) = 100.
Proof.
  refine (proj2 (proj2 (C4_happy_success (env_ok true []) sample_input
            "DataPipelineWorkflowHappyPath" "worker-1" eq_refl eq_refl _))).
  intros a args tq; exists "done"; reflexivity.
Defined.

(** C5: every successful run of the scenarios workflow under the
    AdvancedVisibility type upserts the [Step] values validation, extract,
    transform, load, complete in this order; each of the first four comes
    right before the invocation of its stage, and complete comes after the
    poll invocation. *)
Theorem C5_visibility_tags (env : Env) (input : DataPipelineParams)
    (Hok : exists m, fst (Scenarios.run env input Scenarios.VISIBILITY init_state) = Ok m) :
  let l := log (snd (Scenarios.run env input Scenarios.VISIBILITY init_state)) in
  step_tags l = ["validation"; "extract"; "transform"; "load"; "complete"] /\
  markers l
  = [MInvoke get_available_task_queue;
     MTag "validation"; MInvoke validate;
     MTag "extract"; MInvoke extract;
     MTag "transform"; MInvoke transform;
     MTag "load"; MInvoke load;
     MInvoke poll; MTag "complete"].
Proof.
  revert Hok.
  assert (Ev : String.eqb Scenarios.VISIBILITY Scenarios.VISIBILITY = true) by reflexivity.
  assert (E1 : String.eqb Scenarios.FAILURE Scenarios.VISIBILITY = false) by reflexivity.
  assert (E2 : String.eqb Scenarios.BUG Scenarios.VISIBILITY = false) by reflexivity.
  assert (E3 : String.eqb Scenarios.IDEMPOTENCY Scenarios.VISIBILITY = false) by reflexivity.
  assert (E4 : String.eqb Scenarios.SIGNAL Scenarios.VISIBILITY = false) by reflexivity.
  assert (E5 : String.eqb Scenarios.UPDATE Scenarios.VISIBILITY = false) by reflexivity.
  run_wf; intros [m Hm]; try discriminate; split; reflexivity.
Qed.

Lemma C5_visibility_tags_witness :
  step_tags (log (snd (Scenarios.run (env_ok true []) sample_input
                         Scenarios.VISIBILITY init_state)))
  = ["validation"; "extract"; "transform"; "load"; "complete"].
Proof.
  refine (proj1 (C5_visibility_tags (env_ok true []) sample_input _)).
  exists "Successfully processed: data.csv!"; reflexivity.
Defined.

Definition task_queue_eqb (x y : option string) : bool :=
  match x, y with
  | Some a, Some b => String.eqb a b
  | None, None => true
  | _, _ => false
  end.

(** [true] when, in an invocation list, worker discovery runs without a
    task queue, [validate] runs on [validate_tq], and every other activity
    runs on the task queue [q]. *)
Definition routed (q : string) (validate_tq : option string)
    (l : list (activity * option string)) : bool :=
  forallb (fun atq =>
    match fst atq with
    | get_available_task_queue => task_queue_eqb (snd atq) None
    | validate => task_queue_eqb (snd atq) validate_tq
    | _ => task_queue_eqb (snd atq) (Some q)
    end) l.

(** C6 (as stated, refuted): the NonRecoverableFailure workflow invokes
    [validate] on the discovered task queue. *)
Lemma C6_counterexample :
  invocations validate
    (log (snd (NonRecoverableFailure.run (env_ok true []) sample_input init_state)))
  = [([ArgParams (mkParams "data.csv" "blue")], Some "worker-1")].
Proof. vm_compute. reflexivity. Qed.

(** C6 (amended): in every run of every workflow, worker discovery is
    invoked once, without a task queue, and every extract, transform, load
    and poll invocation runs on the task queue it returned; [validate] runs
    without a task queue in the scenarios and happy-path workflows and on
    that same task queue in the NonRecoverableFailure workflow. *)
Theorem C6_worker_affinity (env : Env) (input : DataPipelineParams) (wt q : string)
    (Hq : env_discover env = Some q) :
  (let l := log (snd (Scenarios.run env input wt init_state)) in
   length (invocations get_available_task_queue l) = 1%nat /\
   routed q None (invoked l) = true) /\
  (let l := log (snd (HappyPath.run env input wt init_state)) in
   length (invocations get_available_task_queue l) = 1%nat /\
   routed q None (invoked l) = true) /\
  (let l := log (snd (NonRecoverableFailure.run env input init_state)) in
   length (invocations get_available_task_queue l) = 1%nat /\
   routed q (Some q) (invoked l) = true).
Proof.
  split; [|split]; split; run_wf; reflexivity.
Qed.

Lemma C6_worker_affinity_witness :
  routed "worker-1" (Some "worker-1")
    (invoked (log (snd (NonRecoverableFailure.run (env_ok true []) sample_input
                         init_state)))) = true.
Proof.
  exact (proj2 (proj2 (proj2 (C6_worker_affinity (env_ok true []) sample_input
                                "any" "worker-1" eq_refl)))).
Defined.

(** C7: under the RecoverableBug type, once transform has succeeded the
    run raises the plain [Exception("Workflow bug!")], which the runtime
    treats as a retryable workflow-task failure; load is never invoked and
    the progress query returns 40. *)
Theorem C7_recoverable_bug (env : Env) (input : DataPipelineParams) (q o1 o2 : string)
    (Hq : env_discover env = Some q) (Hv : env_validate env input None = Some true)
    (He : env_activity env extract [ArgParams input] (Some q) = Some o1)
    (Ht : env_activity env transform [ArgParams input] (Some q) = Some o2) :
  let r := Scenarios.run env input Scenarios.BUG init_state in
  host_outcome (fst r) = WorkflowTaskFailed (Exception "Workflow bug!") /\
  retryable (Exception "Workflow bug!") = true /\
  invocations load (log (snd r)) = [] /\
  invocations transform (log (snd r)) = [([ArgParams input], Some q)] /\
  progress (snd r) = 40 /\
  forallb (fun n => n <=? 40) (progress_values (log (snd r))) = true.
Proof.
  assert (E1 : String.eqb Scenarios.FAILURE Scenarios.BUG = false) by reflexivity.
  assert (E2 : String.eqb Scenarios.VISIBILITY Scenarios.BUG = false) by reflexivity.
  assert (E3 : String.eqb Scenarios.BUG Scenarios.BUG = true) by reflexivity.
  run_wf; repeat split.
Qed.

Lemma C7_recoverable_bug_witness :
  progress (snd (Scenarios.run (env_ok true []) sample_input Scenarios.BUG init_state))
  = 40.
Proof.
  exact (proj1 (proj2 (proj2 (proj2 (proj2
    (C7_recoverable_bug (env_ok true []) sample_input "worker-1" "done" "done"
       eq_refl eq_refl eq_refl eq_refl)))))).
Defined.

(** C8: under the HumanSignal (resp. HumanUpdate) type, the wait replaces
    the poll stage: when no signal (resp. update) is delivered within the
    60 seconds of the wait, the run fails the workflow with the
    non-retried [ApplicationError("Load did not complete before timeout")];
    when one is, the run reaches progress 100 and completes; poll is never
    invoked. *)
Theorem C8_human_in_loop (env : Env) (input : DataPipelineParams) (q : string)
    (Hq : env_discover env = Some q) (Hv : env_validate env input None = Some true)
    (Hs : stages_succeed env) :
  (forall wt kind, (wt = Scenarios.SIGNAL /\ kind = is_signal_msg) \/
                   (wt = Scenarios.UPDATE /\ kind = is_update_msg) ->
   let r := Scenarios.run env input wt init_state in
   invocations poll (log (snd r)) = [] /\
   (delivered_before kind 60 (env_messages env) = false ->
      host_outcome (fst r) = WorkflowFailed Scenarios.load_timeout_error /\
      retryable Scenarios.load_timeout_error = false) /\
   (delivered_before kind 60 (env_messages env) = true ->
      host_outcome (fst r)
      = Completed ("Successfully processed: " ++ input_filename input ++ "!") /\
      progress (snd r) = 100)).
Proof.
  unfold delivered_before.
  intros wt kind [[-> ->] | [-> ->]].
  - assert (E1 : String.eqb Scenarios.FAILURE Scenarios.SIGNAL = false) by reflexivity.
    assert (E2 : String.eqb Scenarios.VISIBILITY Scenarios.SIGNAL = false) by reflexivity.
    assert (E3 : String.eqb Scenarios.BUG Scenarios.SIGNAL = false) by reflexivity.
    assert (E4 : String.eqb Scenarios.IDEMPOTENCY Scenarios.SIGNAL = false) by reflexivity.
    assert (E5 : String.eqb Scenarios.SIGNAL Scenarios.SIGNAL = true) by reflexivity.
    split; [|split]; intros; run_wf; repeat split; discriminate.
  - assert (E1 : String.eqb Scenarios.FAILURE Scenarios.UPDATE = false) by reflexivity.
    assert (E2 : String.eqb Scenarios.VISIBILITY Scenarios.UPDATE = false) by reflexivity.
    assert (E3 : String.eqb Scenarios.BUG Scenarios.UPDATE = false) by reflexivity.
    assert (E4 : String.eqb Scenarios.IDEMPOTENCY Scenarios.UPDATE = false) by reflexivity.
    assert (E5 : String.eqb Scenarios.SIGNAL Scenarios.UPDATE = false) by reflexivity.
    assert (E6 : String.eqb Scenarios.UPDATE Scenarios.UPDATE = true) by reflexivity.
    split; [|split]; intros; run_wf; repeat split; discriminate.
Qed.

Lemma C8_human_in_loop_witness :
  host_outcome (fst (Scenarios.run (env_ok true [(30, SignalMsg "loaded")]) sample_input
                       Scenarios.SIGNAL init_state))
  = Completed "Successfully processed: data.csv!".
Proof.
  refine (proj1 (proj2 (proj2 (C8_human_in_loop (env_ok true [(30, SignalMsg "loaded")])
            sample_input "worker-1" eq_refl eq_refl _ Scenarios.SIGNAL is_signal_msg
            (or_introl (conj eq_refl eq_refl)))) eq_refl)).
  intros a args tq; exists "done"; reflexivity.
Defined.




(** C10: the signal handler sets [load_complete_signal] and the update
    handler sets [load_complete_update], each leaving every other field of
    the workflow (progress, the other flag, the command log) unchanged; the
    update handler returns "Workflow update successful"; neither outcome
    depends on the payload. *)
Theorem C10_handlers_frame :
  (forall (complete : string) (s : WState),
     let r := load_complete_signal_handler complete s in
     fst r = Ok tt /\
     load_complete_signal (snd r) = true /\
     progress (snd r) = progress s /\
     load_complete_update (snd r) = load_complete_update s /\
     log (snd r) = log s) /\
  (forall (complete : string) (s : WState),
     let r := load_complete_update_handler complete s in
     fst r = Ok "Workflow update successful" /\
     load_complete_update (snd r) = true /\
     progress (snd r) = progress s /\
     load_complete_signal (snd r) = load_complete_signal s /\
     log (snd r) = log s) /\
  (forall (p1 p2 : string) (s : WState),
     load_complete_signal_handler p1 s = load_complete_signal_handler p2 s /\
     load_complete_update_handler p1 s = load_complete_update_handler p2 s).
Proof.
  repeat split.
Qed.

(** ** Further properties of the workflows *)

(** Extra: every activity invoked after worker discovery receives the request as its first argument; the NonRecoverableFailure workflow, and the scenarios workflow under the NonRecoverableFailure type, pass the request with [validation] overwritten to "blue" to all of them, and the other runs pass it unchanged. *)
Theorem workflow_inputs (env : Env) (input : DataPipelineParams) (wt : string) :
  stage_inputs_are (set_validation input "blue")
    (log (snd (NonRecoverableFailure.run env input init_state))) = true /\
  stage_inputs_are
    (if String.eqb Scenarios.FAILURE wt then set_validation input "blue" else input)
    (log (snd (Scenarios.run env input wt init_state))) = true /\
  stage_inputs_are input (log (snd (HappyPath.run env input wt init_state))) = true.
Proof.
  split; [|split]; [| destruct (String.eqb Scenarios.FAILURE wt) eqn:Ef |];
    run_wf; close_check.
Qed.

(** Extra: in every run of every workflow, worker discovery is invoked with a 10 s start-to-close timeout and no heartbeat or retry policy, validate, extract, transform and load with 300 s and a 20 s heartbeat, and poll with 3000 s, a 20 s heartbeat and the constant retry policy (2 s, coefficient 1). *)
Theorem workflow_activity_options (env : Env) (input : DataPipelineParams) (wt : string) :
  options_as_expected (log (snd (NonRecoverableFailure.run env input init_state))) = true /\
  options_as_expected (log (snd (Scenarios.run env input wt init_state))) = true /\
  options_as_expected (log (snd (HappyPath.run env input wt init_state))) = true.
Proof. split; [|split]; run_wf; close_check. Qed.

(** Extra: when a run ends because activity [a] failed, the progress query returns the checkpoint set just before [a] was invoked (0, 10, 20, 40, 60 or 80). *)
Theorem failed_activity_checkpoint (env : Env) (input : DataPipelineParams) (wt : string)
    (a : activity) :
  (fst (NonRecoverableFailure.run env input init_state) = Raise (ActivityError a) ->
   progress (snd (NonRecoverableFailure.run env input init_state)) = checkpoint_before a) /\
  (fst (Scenarios.run env input wt init_state) = Raise (ActivityError a) ->
   progress (snd (Scenarios.run env input wt init_state)) = checkpoint_before a) /\
  (fst (HappyPath.run env input wt init_state) = Raise (ActivityError a) ->
   progress (snd (HappyPath.run env input wt init_state)) = checkpoint_before a).
Proof.
  split; [|split]; run_wf; intros H; inversion H; subst; reflexivity.
Qed.

(** Extra: poll receives the request and the workflow type in the scenarios and happy-path workflows, and only the (overwritten) request in the NonRecoverableFailure workflow. *)
Theorem poll_arguments (env : Env) (input : DataPipelineParams) (wt : string) :
  forallb (fun x => args_eqb (fst x) [ArgParams (set_validation input "blue")])
    (invocations poll (log (snd (NonRecoverableFailure.run env input init_state)))) = true /\
  forallb (fun x => args_eqb (fst x)
             [ArgParams (if String.eqb Scenarios.FAILURE wt
                         then set_validation input "blue" else input); ArgStr wt])
    (invocations poll (log (snd (Scenarios.run env input wt init_state)))) = true /\
  forallb (fun x => args_eqb (fst x) [ArgParams input; ArgStr wt])
    (invocations poll (log (snd (HappyPath.run env input wt init_state)))) = true.
Proof.
  split; [|split]; [| destruct (String.eqb Scenarios.FAILURE wt) eqn:Ef |];
    run_wf; close_check.
Qed.

(** Extra: when worker discovery fails, every workflow fails with that activity error before invoking anything else, and progress stays at 0. *)
Theorem discovery_failure (env : Env) (input : DataPipelineParams) (wt : string)
    (Hd : env_discover env = None) :
  let r1 := NonRecoverableFailure.run env input init_state in
  let r2 := Scenarios.run env input wt init_state in
  let r3 := HappyPath.run env input wt init_state in
  host_outcome (fst r1) = WorkflowFailed (ActivityError get_available_task_queue) /\
  host_outcome (fst r2) = WorkflowFailed (ActivityError get_available_task_queue) /\
  host_outcome (fst r3) = WorkflowFailed (ActivityError get_available_task_queue) /\
  invoked (log (snd r1)) = [(get_available_task_queue, None)] /\
  invoked (log (snd r2)) = [(get_available_task_queue, None)] /\
  invoked (log (snd r3)) = [(get_available_task_queue, None)] /\
  progress (snd r1) = 0 /\ progress (snd r2) = 0 /\ progress (snd r3) = 0.
Proof. run_wf; repeat split. Qed.

(** Extra: a run of the scenarios or NonRecoverableFailure workflow completes exactly when its progress ends at 100, and then with the message built from the input filename; the happy path completes either so or with "invalidated" at progress 10. *)
Theorem success_iff_complete (env : Env) (input : DataPipelineParams) (wt : string) :
  (forall m, fst (NonRecoverableFailure.run env input init_state) = Ok m ->
     m = "Successfully processed: " ++ input_filename input ++ "!" /\
     progress (snd (NonRecoverableFailure.run env input init_state)) = 100) /\
  (progress (snd (NonRecoverableFailure.run env input init_state)) = 100 ->
     fst (NonRecoverableFailure.run env input init_state)
     = Ok ("Successfully processed: " ++ input_filename input ++ "!")) /\
  (forall m, fst (Scenarios.run env input wt init_state) = Ok m ->
     m = "Successfully processed: " ++ input_filename input ++ "!" /\
     progress (snd (Scenarios.run env input wt init_state)) = 100) /\
  (progress (snd (Scenarios.run env input wt init_state)) = 100 ->
     fst (Scenarios.run env input wt init_state)
     = Ok ("Successfully processed: " ++ input_filename input ++ "!")) /\
  (forall m, fst (HappyPath.run env input wt init_state) = Ok m ->
     (m = "Successfully processed: " ++ input_filename input ++ "!" /\
      progress (snd (HappyPath.run env input wt init_state)) = 100) \/
     (m = "invalidated" /\ progress (snd (HappyPath.run env input wt init_state)) = 10)) /\
  (progress (snd (HappyPath.run env input wt init_state)) = 100 ->
     fst (HappyPath.run env input wt init_state)
     = Ok ("Successfully processed: " ++ input_filename input ++ "!")).
Proof.
  repeat split; intros;
    repeat match goal with
           | H : fst _ = _ |- _ => revert H
           | H : progress _ = _ |- _ => revert H
           end;
    destruct (String.eqb Scenarios.FAILURE wt); run_wf; intros; try discriminate;
    try match goal with H : Ok _ = Ok _ |- _ => inversion H; subst end;
    first [ reflexivity | split; reflexivity | left; split; reflexivity
          | right; split; reflexivity ].
Qed.

(** Extra: search attributes are only ever upserted by the scenarios workflow under the AdvancedVisibility type: no other run upserts any attribute, under any key. *)
Theorem upserts_only_visibility (env : Env) (input : DataPipelineParams) (wt : string) :
  (String.eqb Scenarios.VISIBILITY wt = false ->
   upserts (log (snd (Scenarios.run env input wt init_state))) = []) /\
  upserts (log (snd (HappyPath.run env input wt init_state))) = [] /\
  upserts (log (snd (NonRecoverableFailure.run env input init_state))) = [].
Proof. split; [intros Hv|split]; run_wf; reflexivity. Qed.

(** Extra: every activity is invoked at most once per run, except load in the scenarios workflow under the Idempotency type, which is invoked at most twice. *)
Theorem invocation_counts (env : Env) (input : DataPipelineParams) (wt : string) (a : activity) :
  let l1 := log (snd (NonRecoverableFailure.run env input init_state)) in
  let l2 := log (snd (Scenarios.run env input wt init_state)) in
  let l3 := log (snd (HappyPath.run env input wt init_state)) in
  (length (invocations a l1) <= 1)%nat /\ (length (invocations a l3) <= 1)%nat /\
  (activity_eqb a load = false \/ String.eqb Scenarios.IDEMPOTENCY wt = false ->
   (length (invocations a l2) <= 1)%nat) /\
  (length (invocations a l2) <= 2)%nat.
Proof.
  destruct a; repeat split; try intros [Ha | Hi]; try discriminate; run_wf; simpl; lia.
Qed.

(** Extra: the scenarios workflow waits for a condition only under the HumanSignal and HumanUpdate types, then at most once and without ever invoking poll; the other two workflows never wait. *)
Theorem waits_only_human (env : Env) (input : DataPipelineParams) (wt : string) :
  let l := log (snd (Scenarios.run env input wt init_state)) in
  (String.eqb Scenarios.SIGNAL wt = false -> String.eqb Scenarios.UPDATE wt = false ->
   count_waits l = 0%nat) /\
  ((String.eqb Scenarios.SIGNAL wt = true \/ String.eqb Scenarios.UPDATE wt = true) ->
   invocations poll l = [] /\ (count_waits l <= 1)%nat) /\
  count_waits (log (snd (HappyPath.run env input wt init_state))) = 0%nat /\
  count_waits (log (snd (NonRecoverableFailure.run env input init_state))) = 0%nat.
Proof.
  repeat split; try intros; try match goal with H : _ \/ _ |- _ => destruct H end;
    run_wf; simpl; try lia; try reflexivity; try congruence.
Qed.

(** Extra: the exceptions the workflow code raises once the run's request
    has been decoded (the decoding of [args[0]] at the start of the
    scenarios workflow, which fails on a missing or malformed argument, is
    not part of this model): the happy path only with an activity error; the NonRecoverableFailure workflow with an activity error or the validation error; the scenarios workflow also with the "Workflow bug!" exception, only under the RecoverableBug type, and the load timeout error, only under the HumanSignal and HumanUpdate types. *)
Theorem raised_exceptions (env : Env) (input : DataPipelineParams) (wt : string) (e : exn) :
  (fst (HappyPath.run env input wt init_state) = Raise e ->
   exists a, e = ActivityError a) /\
  (fst (NonRecoverableFailure.run env input init_state) = Raise e ->
   (exists a, e = ActivityError a) \/ e = validation_error) /\
  (fst (Scenarios.run env input wt init_state) = Raise e ->
   (exists a, e = ActivityError a) \/ e = validation_error \/
   (e = Exception "Workflow bug!" /\ String.eqb Scenarios.BUG wt = true) \/
   (e = Scenarios.load_timeout_error /\
    (String.eqb Scenarios.SIGNAL wt = true \/ String.eqb Scenarios.UPDATE wt = true))).
Proof.
  unfold validation_error.
  repeat split; destruct (String.eqb Scenarios.FAILURE wt) eqn:Ef;
    destruct (String.eqb Scenarios.BUG wt) eqn:Eb;
    destruct (String.eqb Scenarios.SIGNAL wt) eqn:Es;
    destruct (String.eqb Scenarios.UPDATE wt) eqn:Eu;
    run_wf; intros H; try discriminate; inversion H; subst;
    eauto 6.
Qed.

(** Extra: under the RecoverableBug type the scenarios workflow never completes, whatever the activities do. *)
Theorem bug_never_completes (env : Env) (input : DataPipelineParams) (m : string) :
  fst (Scenarios.run env input Scenarios.BUG init_state) <> Ok m.
Proof.
  assert (E1 : String.eqb Scenarios.FAILURE Scenarios.BUG = false) by reflexivity.
  assert (E2 : String.eqb Scenarios.VISIBILITY Scenarios.BUG = false) by reflexivity.
  assert (E3 : String.eqb Scenarios.BUG Scenarios.BUG = true) by reflexivity.
  run_wf; discriminate.
Qed.


(** Extra: the NonRecoverableFailure workflow, and the scenarios workflow under the NonRecoverableFailure type, behave the same whatever [validation] value the caller passes. *)
Theorem validation_field_ignored (env : Env) (fn v1 v2 : string) :
  NonRecoverableFailure.run env (mkParams fn v1) init_state
  = NonRecoverableFailure.run env (mkParams fn v2) init_state /\
  Scenarios.run env (mkParams fn v1) Scenarios.FAILURE init_state
  = Scenarios.run env (mkParams fn v2) Scenarios.FAILURE init_state.
Proof. split; reflexivity. Qed.

(** Extra: handling a sequence of signal and update messages leaves progress and the command log unchanged, and each flag ends true exactly when it was already true or a message of its kind was handled. *)
Theorem message_flags (ms : list (Z * message)) (s : WState) :
  let s' := deliver_all ms s in
  progress s' = progress s /\ log s' = log s /\
  load_complete_signal s'
  = load_complete_signal s || existsb (fun tm => is_signal_msg (snd tm)) ms /\
  load_complete_update s'
  = load_complete_update s || existsb (fun tm => is_update_msg (snd tm)) ms.
Proof.
  unfold deliver_all; revert s.
  induction ms as [|[t m] ms IH]; intros s; simpl.
  - rewrite !orb_false_r; auto.
  - destruct (IH (snd (deliver m s))) as (Hp & Hl & Hs & Hu).
    destruct m; simpl in *; repeat split; rewrite ?Hp, ?Hl, ?Hs, ?Hu;
      destruct (load_complete_signal s), (load_complete_update s); reflexivity.
Qed.

Lemma failed_activity_checkpoint_witness :
  progress (snd (HappyPath.run (env_fail extract) sample_input "any" init_state)) = 20.
Proof.
  exact (proj2 (proj2 (failed_activity_checkpoint (env_fail extract) sample_input "any"
                         extract)) eq_refl).
Defined.

Lemma discovery_failure_witness :
  progress (snd (Scenarios.run (env_fail get_available_task_queue) sample_input "any"
                   init_state)) = 0.
Proof.
  exact (proj1 (proj2 (proj2 (proj2 (proj2 (proj2 (proj2 (proj2
    (discovery_failure (env_fail get_available_task_queue) sample_input "any"
       eq_refl))))))))).
Defined.

Lemma success_iff_complete_witness :
  progress (snd (Scenarios.run (env_ok true []) sample_input "any" init_state)) = 100.
Proof.
  exact (proj2 (proj1 (proj2 (proj2 (success_iff_complete (env_ok true []) sample_input
                                       "any"))) _ eq_refl)).
Defined.

Lemma upserts_only_visibility_witness :
  upserts (log (snd (Scenarios.run (env_ok true []) sample_input "any" init_state))) = [].
Proof.
  exact (proj1 (upserts_only_visibility (env_ok true []) sample_input "any") eq_refl).
Defined.

Lemma invocation_counts_witness :
  (length (invocations load (log (snd (Scenarios.run (env_ok true []) sample_input "any"
                                        init_state)))) <= 1)%nat.
Proof.
  exact (proj1 (proj2 (proj2 (invocation_counts (env_ok true []) sample_input "any" load)))
           (or_intror eq_refl)).
Defined.

Lemma waits_only_human_witness :
  count_waits (log (snd (Scenarios.run (env_ok true []) sample_input "any" init_state)))
  = 0%nat.
Proof.
  exact (proj1 (waits_only_human (env_ok true []) sample_input "any") eq_refl eq_refl).
Defined.

Lemma raised_exceptions_witness :
  (exists a, Exception "Workflow bug!" = ActivityError a) \/
  Exception "Workflow bug!" = validation_error \/
  (Exception "Workflow bug!" = Exception "Workflow bug!" /\
   String.eqb Scenarios.BUG Scenarios.BUG = true) \/
  (Exception "Workflow bug!" = Scenarios.load_timeout_error /\
   (String.eqb Scenarios.SIGNAL Scenarios.BUG = true \/
    String.eqb Scenarios.UPDATE Scenarios.BUG = true)).
Proof.
  exact (proj2 (proj2 (raised_exceptions (env_ok true []) sample_input Scenarios.BUG
                         (Exception "Workflow bug!"))) eq_refl).
Defined.

Lemma bug_never_completes_witness :
  fst (Scenarios.run (env_ok true []) sample_input Scenarios.BUG init_state)
  <> Ok "Successfully processed: data.csv!".
Proof.
  exact (bug_never_completes (env_ok true []) sample_input "Successfully processed: data.csv!").
Defined.

